(** * nekocode-rust C++ samples: the threshold-scaling [Vector] and the
      [DataProcessor] / [AdvancedProcessor] pipeline

    Shallow embedding of
    - [examples/test_cpp.cpp]: [template<typename T> class Vector]
      ([push], [size]);
    - [test_samples/sample.cpp]: [class DataProcessor]
      ([create_default], [process_data], [process_item], [get_data]) and
      [class AdvancedProcessor] (constructor, [process_data] override).

    C++ [int] is a 32-bit two's-complement integer, carried here as a [Z]
    together with the reduction [to_int] into [INT_MIN .. INT_MAX].  The
    standard leaves signed overflow undefined; the embedding takes the
    wrap-around every mainstream target produces, and the theorems that
    depend on it say so through explicit range hypotheses. *)

From Stdlib Require Import ZArith List String Bool Lia PeanoNat.
From Equations Require Import Equations.
Import ListNotations.

Local Open Scope Z_scope.

(** ** 32-bit [int] *)

(** Values of type [int] are the [Z] within [Int.in_range]. *)
Abbreviation int := Z (only parsing).

Module Int.

Definition INT_MAX : Z := 2147483647.
Definition INT_MIN : Z := -2147483648.
Definition modulus : Z := 4294967296.

Definition in_range (z : Z) : Prop := INT_MIN <= z <= INT_MAX.

(** Reduction of a mathematical integer to the [int] with the same residue
    modulo 2^32 (the conversion to [int], and the result of an overflowing
    operation). *)
Definition to_int (z : Z) : int := (z - INT_MIN) mod modulus + INT_MIN.

(** [a * b] on [int] operands. *)
Definition mul (a b : int) : int := to_int (a * b).

(** [a > b] on [int] operands. *)
Definition gt (a b : int) : bool := b <? a.

(** [a + b] and [a - b] on [int] operands. *)
Definition add (a b : int) : int := to_int (a + b).
Definition sub (a b : int) : int := to_int (a - b).

End Int.

(** ** What [Vector<T>::push] asks of its element type

    The template body uses [elem > 0] and [elem *= 2]; any [T] put into
    [Vector] has to supply both. *)

Class Scalable (T : Type) : Type := {
  gt_zero : T -> bool;      (* elem > 0 *)
  times_two : T -> T        (* the value assigned by elem *= 2 *)
}.

#[export] Instance int_Scalable : Scalable int := {
  gt_zero := fun elem => Int.gt elem 0;
  times_two := fun elem => Int.mul elem 2
}.

(** ** [template<typename T> class Vector] *)

Module Vector.

Section Template.

Context {T : Type} {ST : Scalable T}.

(** The class has the single member [vector<T> data]. *)
Record Vector : Type := mk { data : list T }.

(** [Vector() {}] *)
Definition empty : Vector := mk [].

(** Body of the range-for loop, for one element:
    [if (elem > 0) { elem *= 2; }]. *)
Definition scale (elem : T) : T :=
  if gt_zero elem then times_two elem else elem.

(** [void push(const T& item)]: append, then one pass over the whole of
    [data] when its size is above 10. *)
Definition push (v : Vector) (item : T) : Vector :=
  let data1 := data v ++ [item] in
  if (10 <? List.length data1)%nat
  then mk (map scale data1)
  else mk data1.

(** The caller's [for (x : items) v.push(x);]. *)
Definition pushes (v : Vector) (items : list T) : Vector :=
  fold_left push items v.

(** [y] is what [x] has become after some number of passes. *)
Definition scaled_from (x y : T) : Prop :=
  exists k : nat, y = Nat.iter k scale x.

(** [virtual int size() const { return data.size(); }]: the [size_t] count
    converted to the [int] return type. *)
Definition size (v : Vector) : int :=
  Int.to_int (Z.of_nat (List.length (data v))).

End Template.

Arguments Vector T : clear implicits.

End Vector.

(** ** [int fibonacci(int n)]

    [if (n <= 1) return n; return fibonacci(n-1) + fibonacci(n-2);]
    The recursion is on [Z.to_nat n]: past the test [n] is at least 2, and
    both [n - 1] and [n - 2] are smaller. *)

#[local] Opaque Int.to_int.
#[local] Unset Equations With Funext.

Equations? fibonacci (n : int) : int by wf (Z.to_nat n) lt :=
  fibonacci n with Z_le_gt_dec n 1 := {
    | left _ => n
    | right _ =>
        Int.add (fibonacci (Int.sub n 1)) (fibonacci (Int.sub n 2)) }.
Proof.
  all: with_strategy transparent [Int.to_int]
         unfold Int.sub, Int.to_int, Int.INT_MIN, Int.modulus.
  - pose proof (Z.mod_le (n - 1 - -2147483648) 4294967296
                  ltac:(lia) ltac:(lia)).
    lia.
  - pose proof (Z.mod_le (n - 2 - -2147483648) 4294967296
                  ltac:(lia) ltac:(lia)).
    lia.
Qed.

#[local] Transparent Int.to_int.

(** The Fibonacci numbers F(0) = 0, F(1) = 1, F(k+2) = F(k+1) + F(k) as
    mathematical integers, by linear iteration on a pair: what [fibonacci]
    is compared with. *)
Fixpoint Fibonacci_pair (k : nat) (a b : Z) : Z :=
  match k with
  | O => a
  | S k' => Fibonacci_pair k' b (a + b)
  end.

Definition Fibonacci_number (k : nat) : Z := Fibonacci_pair k 0 1.

(** ** [class DataProcessor] and [class AdvancedProcessor]

    [AdvancedProcessor] derives from [DataProcessor] and adds no member, so
    one record carries an object of either class: the two data members and
    the class the object was constructed as, which is what a virtual call
    looks at. *)

Inductive class_id : Type :=
| DataProcessor_class
| AdvancedProcessor_class.

Record DataProcessor : Type := mkDataProcessor {
  dynamic_class : class_id;
  name : string;
  data : list int
}.

(** What a run does to the outside of its local variables, in program
    order: characters sent to [std::cout], and values handed to
    [data.push_back]. *)
Inductive effect : Type :=
| Print (text : string)
| PushBack (value : int).

(** The object a method runs on ([*this]) and the effects performed so
    far. *)
Record Machine : Type := mkMachine {
  this : DataProcessor;
  history : list effect
}.

(** A small state monad over [Machine] for the method bodies. *)
Definition M (A : Type) : Type := Machine -> A * Machine.

Definition ret {A : Type} (a : A) : M A := fun m => (a, m).

Definition bind {A B : Type} (c : M A) (k : A -> M B) : M B :=
  fun m => let (a, m1) := c m in k a m1.

Notation "c1 ;; c2" := (bind c1 (fun _ => c2))
  (at level 61, right associativity).

(** State of the machine after the command [c]. *)
Definition exec {A : Type} (c : M A) (m : Machine) : Machine := snd (c m).

(** [for (const auto& x : xs) body(x);] *)
Fixpoint for_each {A : Type} (xs : list A) (body : A -> M unit) : M unit :=
  match xs with
  | [] => ret tt
  | x :: rest => body x ;; for_each rest body
  end.

(** [std::cout << text << std::endl;] *)
Definition endl : string := String (Ascii.ascii_of_nat 10) EmptyString.

Definition cout_line (text : string) : M unit :=
  fun m => (tt, mkMachine (this m) (history m ++ [Print (text ++ endl)])).

(** [data.push_back(value)] on the member [data] of [*this]. *)
Definition data_push_back (value : int) : M unit :=
  fun m =>
    let o := this m in
    (tt, mkMachine
           (mkDataProcessor (dynamic_class o) (name o) (data o ++ [value]))
           (history m ++ [PushBack value])).

Module DataProcessor.

(** [DataProcessor(const std::string& name) : name(name) {}] *)
Definition constructor (name : string) : DataProcessor :=
  mkDataProcessor DataProcessor_class name [].

(** [static std::unique_ptr<DataProcessor> create_default()] *)
Definition create_default : DataProcessor := constructor "default".

(** [inline void process_item(int item) { data.push_back(item * 2); }] *)
Definition process_item (item : int) : M unit :=
  data_push_back (Int.mul item 2).

(** [virtual void process_data(const std::vector<int>& items)] *)
Definition process_data (items : list int) : M unit :=
  for_each items process_item.

(** [const std::vector<int>& get_data() const] *)
Definition get_data (o : DataProcessor) : list int := data o.

End DataProcessor.

Module AdvancedProcessor.

Definition notification : string := "Advanced processing...".

(** [AdvancedProcessor() : DataProcessor("advanced") {}] *)
Definition constructor : DataProcessor :=
  let base := DataProcessor.constructor "advanced" in
  mkDataProcessor AdvancedProcessor_class (name base) (data base).

(** [void process_data(const std::vector<int>& items) override] *)
Definition process_data (items : list int) : M unit :=
  cout_line notification ;;
  DataProcessor.process_data items.

End AdvancedProcessor.

(** The virtual call [p->process_data(items)]: the override of the class
    the object was constructed as. *)
Definition virtual_process_data (items : list int) : M unit :=
  fun m =>
    match dynamic_class (this m) with
    | DataProcessor_class => DataProcessor.process_data items m
    | AdvancedProcessor_class => AdvancedProcessor.process_data items m
    end.

(** A machine about to run a method on [o], nothing done yet. *)
Definition start (o : DataProcessor) : Machine := mkMachine o [].

(** A caller's [for (b : batches) p->process_data(b);]. *)
Definition process_batches (batches : list (list int)) : M unit :=
  for_each batches virtual_process_data.

(** The lines a history sent to [std::cout], in order. *)
Definition printed (h : list effect) : list string :=
  flat_map (fun e => match e with Print s => [s] | PushBack _ => [] end) h.

(** * Properties *)

(** ** [int] arithmetic *)

Lemma to_int_in_range (z : Z) : Int.in_range (Int.to_int z).
Proof.
  unfold Int.in_range, Int.to_int, Int.INT_MIN, Int.INT_MAX, Int.modulus.
  pose proof (Z.mod_pos_bound (z - -2147483648) 4294967296 ltac:(lia)).
  lia.
Qed.

Lemma to_int_id (z : Z) : Int.in_range z -> Int.to_int z = z.
Proof.
  unfold Int.in_range, Int.to_int, Int.INT_MIN, Int.INT_MAX, Int.modulus.
  intros Hz. rewrite Z.mod_small by lia. lia.
Qed.

Lemma mul_2_exact (x : int) :
  -1073741824 <= x < 1073741824 -> Int.mul x 2 = 2 * x.
Proof.
  intros Hx. unfold Int.mul. rewrite to_int_id.
  - lia.
  - unfold Int.in_range, Int.INT_MIN, Int.INT_MAX. lia.
Qed.

(** No [int] is twice 2^30, whatever an overflowing [* 2] leaves behind. *)
Lemma twice_2_30_not_int (y : int) :
  Int.in_range y -> y <> 2 * 1073741824.
Proof. unfold Int.in_range, Int.INT_MAX. lia. Qed.

(** A sequence of [int] values cannot grow strictly for ever. *)
Lemma no_endless_growth (f : nat -> int) :
  (forall k, Int.in_range (f k)) -> ~ (forall k, f k < f (S k)).
Proof.
  intros Hrange Hgrow.
  assert (Hlower : forall k, f 0%nat + Z.of_nat k <= f k).
  { induction k as [|k IH]; [lia|]. specialize (Hgrow k). lia. }
  specialize (Hlower (Z.to_nat Int.modulus)).
  rewrite Z2Nat.id in Hlower by (unfold Int.modulus; lia).
  pose proof (Hrange 0%nat) as H0.
  pose proof (Hrange (Z.to_nat Int.modulus)) as H1.
  unfold Int.in_range, Int.INT_MIN, Int.INT_MAX, Int.modulus in *. lia.
Qed.

(** ** [Vector<T>], for every element type *)

Section VectorFacts.

Context {T : Type} {ST : Scalable T}.

Implicit Types (v : Vector.Vector T) (item : T) (items : list T).

Lemma push_data v item :
  Vector.data (Vector.push v item) =
    if (10 <=? List.length (Vector.data v))%nat
    then map Vector.scale (Vector.data v ++ [item])
    else Vector.data v ++ [item].
Proof.
  unfold Vector.push. rewrite length_app. cbn [List.length].
  replace (List.length (Vector.data v) + 1)%nat
    with (S (List.length (Vector.data v))) by lia.
  change (10 <? S (List.length (Vector.data v)))%nat
    with (10 <=? List.length (Vector.data v))%nat.
  destruct (10 <=? List.length (Vector.data v))%nat; reflexivity.
Qed.

Lemma push_length v item :
  List.length (Vector.data (Vector.push v item)) =
    S (List.length (Vector.data v)).
Proof.
  rewrite push_data.
  destruct (10 <=? List.length (Vector.data v))%nat;
    rewrite ?length_map, length_app; cbn; lia.
Qed.

Lemma pushes_length items : forall v,
  List.length (Vector.data (Vector.pushes v items)) =
    (List.length (Vector.data v) + List.length items)%nat.
Proof.
  induction items as [|x items IH]; intros v; cbn.
  - lia.
  - unfold Vector.pushes in IH. rewrite IH, push_length. lia.
Qed.

Lemma pushes_app items1 items2 v :
  Vector.pushes v (items1 ++ items2) =
    Vector.pushes (Vector.pushes v items1) items2.
Proof. unfold Vector.pushes. apply fold_left_app. Qed.

(** Below the threshold a push is a plain append. *)
Lemma push_below v item :
  (List.length (Vector.data v) < 10)%nat ->
  Vector.data (Vector.push v item) = Vector.data v ++ [item].
Proof.
  intros Hlen. rewrite push_data.
  destruct (Nat.leb_spec 10 (List.length (Vector.data v))); [lia|reflexivity].
Qed.

Lemma pushes_below items : forall v,
  (List.length (Vector.data v) + List.length items <= 10)%nat ->
  Vector.data (Vector.pushes v items) = Vector.data v ++ items.
Proof.
  induction items as [|x items IH]; intros v Hlen; cbn in *.
  - now rewrite app_nil_r.
  - unfold Vector.pushes in IH. rewrite IH.
    + rewrite push_below by lia. now rewrite <- app_assoc.
    + rewrite push_length. lia.
Qed.

(** At or above ten stored elements a push runs the pass over everything,
    the new element included. *)
Lemma push_above v item :
  (10 <= List.length (Vector.data v))%nat ->
  Vector.data (Vector.push v item) =
    map Vector.scale (Vector.data v ++ [item]).
Proof.
  intros Hlen. rewrite push_data.
  destruct (Nat.leb_spec 10 (List.length (Vector.data v))); [reflexivity|lia].
Qed.

(** An element the test [elem > 0] rejects is left as it is by a push,
    whatever the size. *)
Lemma push_keeps_rejected v item i x :
  nth_error (Vector.data v) i = Some x ->
  gt_zero x = false ->
  nth_error (Vector.data (Vector.push v item)) i = Some x.
Proof.
  intros Hi Hx.
  assert (Hlt : (i < List.length (Vector.data v))%nat)
    by (apply nth_error_Some; congruence).
  rewrite push_data.
  destruct (10 <=? List.length (Vector.data v))%nat.
  - rewrite nth_error_map, nth_error_app1, Hi by exact Hlt. cbn.
    unfold Vector.scale. now rewrite Hx.
  - now rewrite nth_error_app1 by exact Hlt.
Qed.

Lemma pushes_keep_rejected items : forall v i x,
  nth_error (Vector.data v) i = Some x ->
  gt_zero x = false ->
  nth_error (Vector.data (Vector.pushes v items)) i = Some x.
Proof.
  induction items as [|y items IH]; intros v i x Hi Hx; cbn.
  - exact Hi.
  - apply IH; [|exact Hx]. now apply push_keeps_rejected.
Qed.

(** The element a push stores, when the test rejects it. *)
Lemma push_stores_rejected v item :
  gt_zero item = false ->
  nth_error (Vector.data (Vector.push v item)) (List.length (Vector.data v))
    = Some item.
Proof.
  intros Hx. rewrite push_data.
  destruct (10 <=? List.length (Vector.data v))%nat.
  - rewrite nth_error_map, nth_error_app2, Nat.sub_diag by lia. cbn.
    unfold Vector.scale. now rewrite Hx.
  - now rewrite nth_error_app2, Nat.sub_diag by lia.
Qed.

Lemma scaled_from_refl x : Vector.scaled_from x x.
Proof. now exists 0%nat. Qed.

Lemma scaled_from_step x y : Vector.scaled_from x y -> Vector.scaled_from x (Vector.scale y).
Proof. intros [k ->]. now exists (S k). Qed.

Lemma Forall2_scaled_map (xs ys : list T) :
  Forall2 Vector.scaled_from xs ys -> Forall2 Vector.scaled_from xs (map Vector.scale ys).
Proof.
  induction 1; cbn; constructor; auto using scaled_from_step.
Qed.

Lemma push_scaled (xs : list T) v item :
  Forall2 Vector.scaled_from xs (Vector.data v) ->
  Forall2 Vector.scaled_from (xs ++ [item]) (Vector.data (Vector.push v item)).
Proof.
  intros Hxs.
  assert (Happ : Forall2 Vector.scaled_from (xs ++ [item]) (Vector.data v ++ [item])).
  { apply Forall2_app; [exact Hxs|]. constructor; [apply scaled_from_refl|constructor]. }
  rewrite push_data.
  destruct (10 <=? List.length (Vector.data v))%nat;
    [now apply Forall2_scaled_map|exact Happ].
Qed.

(** Count and order: the k-th stored element comes from the k-th pushed
    one. *)
Lemma pushes_scaled items : forall (xs : list T) v,
  Forall2 Vector.scaled_from xs (Vector.data v) ->
  Forall2 Vector.scaled_from (xs ++ items) (Vector.data (Vector.pushes v items)).
Proof.
  induction items as [|y items IH]; intros xs v Hxs; cbn.
  - now rewrite app_nil_r.
  - replace (xs ++ y :: items) with ((xs ++ [y]) ++ items)
      by now rewrite <- app_assoc.
    apply IH. now apply push_scaled.
Qed.

End VectorFacts.

(** ** [Vector<int>] *)

Section VectorInt.

Implicit Types (v : Vector.Vector int) (item x : int) (items : list int).

Lemma gt_zero_int x : gt_zero x = true <-> 0 < x.
Proof. cbn. unfold Int.gt. apply Z.ltb_lt. Qed.

Lemma gt_zero_int_false x : x <= 0 -> gt_zero x = false.
Proof. intros Hx. cbn. unfold Int.gt. apply Z.ltb_ge. exact Hx. Qed.

Lemma scale_positive x : 0 < x -> Vector.scale x = Int.mul x 2.
Proof.
  intros Hx. unfold Vector.scale.
  now rewrite (proj2 (gt_zero_int x) Hx).
Qed.

Lemma scale_small_positive x : 0 < x < 1073741824 -> Vector.scale x = 2 * x.
Proof.
  intros Hx. rewrite scale_positive by lia. apply mul_2_exact. lia.
Qed.

(** The stored values stay [int]s. *)
Lemma scale_in_range x : Int.in_range x -> Int.in_range (Vector.scale x).
Proof.
  intros Hx. unfold Vector.scale.
  destruct (gt_zero x); [apply to_int_in_range|exact Hx].
Qed.

Lemma push_in_range v item :
  Forall Int.in_range (Vector.data v) -> Int.in_range item ->
  Forall Int.in_range (Vector.data (Vector.push v item)).
Proof.
  intros Hv Hitem.
  assert (Happ : Forall Int.in_range (Vector.data v ++ [item]))
    by (apply Forall_app; split; [exact Hv|now constructor]).
  rewrite push_data.
  destruct (10 <=? List.length (Vector.data v))%nat; [|exact Happ].
  apply Forall_map. revert Happ. apply Forall_impl. exact scale_in_range.
Qed.

Lemma pushes_in_range items : forall v,
  Forall Int.in_range (Vector.data v) -> Forall Int.in_range items ->
  Forall Int.in_range (Vector.data (Vector.pushes v items)).
Proof.
  induction items as [|y items IH]; intros v Hv Hitems; cbn.
  - exact Hv.
  - inversion Hitems; subst. apply IH; [|assumption].
    now apply push_in_range.
Qed.

(** One push onto ten or more elements doubles a positive element whose
    double is an [int]. *)
Lemma push_doubles v item i x :
  (10 <= List.length (Vector.data v))%nat ->
  nth_error (Vector.data v) i = Some x ->
  0 < x < 1073741824 ->
  nth_error (Vector.data (Vector.push v item)) i = Some (2 * x).
Proof.
  intros Hlen Hi Hx.
  assert (Hlt : (i < List.length (Vector.data v))%nat)
    by (apply nth_error_Some; congruence).
  rewrite push_above by exact Hlen.
  rewrite nth_error_map, nth_error_app1, Hi by exact Hlt. cbn.
  now rewrite scale_small_positive.
Qed.

(** Compounding: [k] pushes onto ten or more elements turn a positive [x]
    into [x * 2^k], while that is an [int]. *)
Lemma pushes_compound items : forall v i x,
  (10 <= List.length (Vector.data v))%nat ->
  nth_error (Vector.data v) i = Some x ->
  0 < x ->
  x * 2 ^ Z.of_nat (List.length items) <= Int.INT_MAX ->
  nth_error (Vector.data (Vector.pushes v items)) i
    = Some (x * 2 ^ Z.of_nat (List.length items)).
Proof.
  unfold Int.INT_MAX.
  induction items as [|y items IH]; intros v i x Hlen Hi Hx Hfit.
  - cbn. rewrite Z.mul_1_r. exact Hi.
  - cbn [List.length] in *. rewrite Nat2Z.inj_succ, Z.pow_succ_r in * by lia.
    assert (Hpow : 1 <= 2 ^ Z.of_nat (List.length items))
      by (pose proof (Z.pow_pos_nonneg 2 (Z.of_nat (List.length items))); lia).
    cbn [Vector.pushes fold_left].
    replace (x * (2 * 2 ^ Z.of_nat (List.length items)))
      with ((2 * x) * 2 ^ Z.of_nat (List.length items)) by lia.
    apply IH.
    + rewrite push_length. lia.
    + apply push_doubles; [exact Hlen|exact Hi|nia].
    + lia.
    + nia.
Qed.

End VectorInt.

(** ** The container's stated properties *)

(** C4.  At most ten pushes onto a container created empty: [size()] is the
    number of pushes, and the stored sequence is exactly the pushed values,
    no pass having run. *)
Theorem growth_before_threshold {T : Type} {ST : Scalable T} (items : list T) :
  (List.length items <= 10)%nat ->
  Vector.size (Vector.pushes Vector.empty items) = Z.of_nat (List.length items)
  /\ Vector.data (Vector.pushes Vector.empty items) = items.
Proof.
  intros Hlen.
  assert (Hdata : Vector.data (Vector.pushes Vector.empty items) = items)
    by (rewrite pushes_below; [reflexivity|cbn; lia]).
  split; [|exact Hdata].
  unfold Vector.size. rewrite Hdata. apply to_int_id.
  unfold Int.in_range, Int.INT_MIN, Int.INT_MAX. lia.
Qed.

Lemma growth_before_threshold_witness :
  Vector.size (Vector.pushes Vector.empty [3; -1; 0; 7]) = 4
  /\ Vector.data (Vector.pushes Vector.empty [3; -1; 0; 7]) = [3; -1; 0; 7].
Proof.
  apply (growth_before_threshold (T:=int) [3; -1; 0; 7]). cbn. lia.
Defined.

Lemma eleven_ones :
  Vector.data (Vector.pushes Vector.empty (repeat 1 11)) = repeat 2 11.
Proof. vm_compute. reflexivity. Qed.

Lemma mul_2_is_4 (item : int) :
  0 < item <= Int.INT_MAX -> Int.mul item 2 = 4 -> item = 2.
Proof.
  unfold Int.mul, Int.to_int, Int.INT_MIN, Int.INT_MAX, Int.modulus.
  intros Hitem Hmul.
  destruct (Z_lt_le_dec (item * 2) 2147483648) as [Hlo|Hhi].
  - rewrite Z.mod_small in Hmul by lia. lia.
  - replace (item * 2 - -2147483648)
      with ((item * 2 - 2147483648) + 1 * 4294967296) in Hmul by lia.
    rewrite Z.mod_add, Z.mod_small in Hmul by lia. lia.
Qed.

(** C1, as the code has it.  Eleven pushes of 1 leave eleven 2s.  A twelfth
    push of a positive [item] runs the pass again: the first eleven elements
    become 4 and the twelfth is [item * 2], so all twelve are 4 exactly when
    [item] is 2. *)
Theorem threshold_scenario (item : int) :
  0 < item <= Int.INT_MAX ->
  Vector.data (Vector.pushes Vector.empty (repeat 1 11)) = repeat 2 11
  /\ Vector.data (Vector.pushes Vector.empty (repeat 1 11 ++ [item]))
       = repeat 4 11 ++ [Int.mul item 2]
  /\ (Forall (fun elem => elem = 4)
        (Vector.data (Vector.pushes Vector.empty (repeat 1 11 ++ [item])))
      <-> item = 2).
Proof.
  intros Hitem.
  assert (H12 : Vector.data (Vector.pushes Vector.empty (repeat 1 11 ++ [item]))
                = repeat 4 11 ++ [Int.mul item 2]).
  { rewrite pushes_app. cbn [Vector.pushes fold_left].
    rewrite push_above by (rewrite eleven_ones, repeat_length; lia).
    rewrite eleven_ones, map_app, map_repeat.
    rewrite (scale_positive 2) by lia. cbn [map].
    rewrite (scale_positive item) by lia. reflexivity. }
  split; [exact eleven_ones|]. split; [exact H12|].
  rewrite H12. split.
  - intros Hall. apply Forall_app in Hall. destruct Hall as [_ Hlast].
    apply mul_2_is_4; [exact Hitem|].
    now inversion Hlast.
  - intros ->. apply Forall_app. split.
    + apply Forall_forall. intros e He. now apply repeat_spec in He.
    + constructor; [reflexivity|constructor].
Qed.

Lemma threshold_scenario_witness :
  Vector.data (Vector.pushes Vector.empty (repeat 1 11)) = repeat 2 11
  /\ Vector.data (Vector.pushes Vector.empty (repeat 1 11 ++ [1]))
       = repeat 4 11 ++ [Int.mul 1 2]
  /\ (Forall (fun elem => elem = 4)
        (Vector.data (Vector.pushes Vector.empty (repeat 1 11 ++ [1])))
      <-> 1 = 2).
Proof.
  apply (threshold_scenario 1). unfold Int.INT_MAX. lia.
Defined.

(** C1, as stated, fails: after twelve pushes of 1 the twelfth element is 2,
    not 4. *)
Lemma twelve_ones_not_all_four :
  0 < 1
  /\ Vector.data (Vector.pushes Vector.empty (repeat 1 12)) = repeat 4 11 ++ [2]
  /\ ~ Forall (fun elem => elem = 4)
         (Vector.data (Vector.pushes Vector.empty (repeat 1 12))).
Proof.
  split; [lia|]. split; [vm_compute; reflexivity|].
  intros Hall.
  assert (Hin : In 2 (Vector.data (Vector.pushes Vector.empty (repeat 1 12))))
    by (vm_compute; tauto).
  pose proof (proj1 (Forall_forall _ _) Hall 2 Hin) as Habs.
  discriminate Habs.
Qed.

(** C5.  An element that is zero or negative is stored as pushed, also by a
    push that runs a pass, and no later push changes it. *)
Theorem nonpositive_untouched (v : Vector.Vector int) (x : int) :
  x <= 0 ->
  nth_error (Vector.data (Vector.push v x)) (List.length (Vector.data v))
    = Some x
  /\ forall (i : nat) (items : list int),
       nth_error (Vector.data v) i = Some x ->
       nth_error (Vector.data (Vector.pushes v items)) i = Some x.
Proof.
  intros Hx. pose proof (gt_zero_int_false x Hx) as Hrej. split.
  - now apply push_stores_rejected.
  - intros i items Hi. now apply pushes_keep_rejected.
Qed.

Lemma nonpositive_untouched_witness :
  nth_error
    (Vector.data (Vector.push (Vector.pushes Vector.empty (repeat (-3) 12)) (-3)))
    (List.length (Vector.data (Vector.pushes Vector.empty (repeat (-3) 12))))
    = Some (-3)
  /\ forall (i : nat) (items : list int),
       nth_error (Vector.data (Vector.pushes Vector.empty (repeat (-3) 12))) i
         = Some (-3) ->
       nth_error
         (Vector.data
            (Vector.pushes (Vector.pushes Vector.empty (repeat (-3) 12)) items))
         i = Some (-3).
Proof.
  apply (nonpositive_untouched
           (Vector.pushes Vector.empty (repeat (-3) 12)) (-3)).
  lia.
Defined.

(** C3, as the code has it.  Once more than ten elements are stored, each
    further push runs the pass over everything, whatever is stored; and a
    positive element doubles, hence strictly grows, at each of them for as
    long as the doubled value is an [int]: after the pushes [before] it is
    [x * 2^k], [k] their number, and the next push makes it twice that. *)
Theorem compounding_while_representable
    (v : Vector.Vector int) (before : list int) (item : int)
    (i : nat) (x : int) :
  (10 < List.length (Vector.data v))%nat ->
  Vector.data (Vector.pushes v (before ++ [item]))
    = map Vector.scale (Vector.data (Vector.pushes v before) ++ [item])
  /\ (nth_error (Vector.data v) i = Some x ->
      0 < x ->
      x * 2 ^ Z.of_nat (S (List.length before)) <= Int.INT_MAX ->
      let y := x * 2 ^ Z.of_nat (List.length before) in
      nth_error (Vector.data (Vector.pushes v before)) i = Some y
      /\ nth_error (Vector.data (Vector.pushes v (before ++ [item]))) i
           = Some (2 * y)
      /\ y < 2 * y).
Proof.
  intros Hlen. split.
  - rewrite pushes_app. cbn [Vector.pushes fold_left].
    apply push_above. rewrite pushes_length. lia.
  - intros Hi Hx Hfit y.
    assert (Hpow : 1 <= 2 ^ Z.of_nat (List.length before))
      by (pose proof (Z.pow_pos_nonneg 2 (Z.of_nat (List.length before))); lia).
    rewrite Nat2Z.inj_succ, Z.pow_succ_r in Hfit by lia.
    assert (Hy : 0 < y) by (unfold y; nia).
    split; [|split].
    + apply pushes_compound; [lia|exact Hi|exact Hx|fold y; lia].
    + replace (2 * y)
        with (x * 2 ^ Z.of_nat (List.length (before ++ [item]))).
      * apply pushes_compound; [lia|exact Hi|exact Hx|].
        rewrite length_app. cbn [List.length].
        replace (List.length before + 1)%nat
          with (S (List.length before)) by lia.
        rewrite Nat2Z.inj_succ, Z.pow_succ_r by lia. exact Hfit.
      * rewrite length_app. cbn [List.length].
        replace (List.length before + 1)%nat
          with (S (List.length before)) by lia.
        rewrite Nat2Z.inj_succ, Z.pow_succ_r by lia. unfold y. lia.
    + lia.
Qed.

Lemma compounding_while_representable_witness :
  let v := Vector.pushes Vector.empty (repeat 3 11) in
  let y := 6 * 2 ^ Z.of_nat (List.length [0; 5]) in
  Vector.data (Vector.pushes v ([0; 5] ++ [7]))
    = map Vector.scale (Vector.data (Vector.pushes v [0; 5]) ++ [7])
  /\ nth_error (Vector.data (Vector.pushes v [0; 5])) 4 = Some y
  /\ nth_error (Vector.data (Vector.pushes v ([0; 5] ++ [7]))) 4 = Some (2 * y)
  /\ y < 2 * y.
Proof.
  intros v y.
  destruct (compounding_while_representable v [0; 5] 7 4 6)
    as [Hpass Hvalue].
  - vm_compute. lia.
  - split; [exact Hpass|]. apply Hvalue.
    + vm_compute. reflexivity.
    + lia.
    + vm_compute. discriminate.
Defined.

(** C3, as stated, fails: a stored 2^30 is positive, and the next push
    leaves -2^31 in its place. *)
Lemma compounding_stops_at_int_range :
  let v := Vector.pushes Vector.empty (repeat 536870912 11) in
  (10 < List.length (Vector.data v))%nat
  /\ nth_error (Vector.data v) 0 = Some 1073741824
  /\ 0 < 1073741824
  /\ nth_error (Vector.data (Vector.push v 1)) 0 = Some (-2147483648)
  /\ ~ 1073741824 < -2147483648.
Proof.
  cbv zeta. split; [vm_compute; lia|]. split; [vm_compute; reflexivity|].
  split; [lia|]. split; [vm_compute; reflexivity|lia].
Qed.

(** C8, as the code has it.  After [n] pushes onto a container created empty
    the stored count is [n] and the k-th stored element is the k-th pushed
    one after some number of passes, for every [n]; [size()], whose result
    is an [int], is [n] for [n] up to [INT_MAX]. *)
Theorem size_counts_pushes {T : Type} {ST : Scalable T} (items : list T) :
  List.length (Vector.data (Vector.pushes Vector.empty items))
    = List.length items
  /\ Forall2 Vector.scaled_from items
       (Vector.data (Vector.pushes Vector.empty items))
  /\ (Z.of_nat (List.length items) <= Int.INT_MAX ->
      Vector.size (Vector.pushes Vector.empty items)
        = Z.of_nat (List.length items)).
Proof.
  assert (Hlen : List.length (Vector.data (Vector.pushes Vector.empty items))
                 = List.length items) by (rewrite pushes_length; reflexivity).
  split; [exact Hlen|]. split.
  - apply (pushes_scaled items [] Vector.empty). constructor.
  - intros Hn. unfold Vector.size. rewrite Hlen. apply to_int_id.
    unfold Int.in_range, Int.INT_MIN. lia.
Qed.

Lemma size_counts_pushes_witness :
  List.length (Vector.data (Vector.pushes Vector.empty (repeat 5 13)))
    = List.length (repeat 5 13)
  /\ Forall2 Vector.scaled_from (repeat 5 13)
       (Vector.data (Vector.pushes Vector.empty (repeat 5 13)))
  /\ Vector.size (Vector.pushes Vector.empty (repeat 5 13))
     = Z.of_nat (List.length (repeat 5 13)).
Proof.
  destruct (size_counts_pushes (T:=int) (repeat 5 13))
    as [Hlen [Hord Hsize]].
  split; [exact Hlen|]. split; [exact Hord|].
  apply Hsize. vm_compute. discriminate.
Defined.

(** C8, as stated, fails: after 2^31 pushes [size()] is -2^31. *)
Lemma size_after_2_31_pushes :
  Vector.size (Vector.pushes Vector.empty (repeat 0 (Z.to_nat 2147483648)))
    = -2147483648
  /\ Vector.size (Vector.pushes Vector.empty (repeat 0 (Z.to_nat 2147483648)))
       <> Z.of_nat (List.length (repeat 0 (Z.to_nat 2147483648))).
Proof.
  assert (Hsize : Vector.size
                    (Vector.pushes Vector.empty (repeat 0 (Z.to_nat 2147483648)))
                  = -2147483648).
  { unfold Vector.size. rewrite pushes_length, repeat_length.
    change (List.length (Vector.data Vector.empty)) with 0%nat.
    rewrite Nat.add_0_l, Z2Nat.id by lia.
    vm_compute. reflexivity. }
  split; [exact Hsize|].
  rewrite Hsize, repeat_length, Z2Nat.id by lia. lia.
Qed.

(** ** The processing pipeline *)

Section Pipeline.

Implicit Types (m : Machine) (o : DataProcessor) (item : int)
  (items : list int).

Lemma exec_seq {A B : Type} (c1 : M A) (c2 : M B) m :
  exec (c1 ;; c2) m = exec c2 (exec c1 m).
Proof. unfold exec, bind. now destruct (c1 m). Qed.

Lemma exec_process_item item m :
  exec (DataProcessor.process_item item) m =
    mkMachine
      (mkDataProcessor (dynamic_class (this m)) (name (this m))
         (data (this m) ++ [Int.mul item 2]))
      (history m ++ [PushBack (Int.mul item 2)]).
Proof. reflexivity. Qed.

Lemma exec_process_data_cons item items m :
  exec (DataProcessor.process_data (item :: items)) m =
    exec (DataProcessor.process_data items)
      (exec (DataProcessor.process_item item) m).
Proof.
  unfold DataProcessor.process_data. cbn [for_each]. apply exec_seq.
Qed.

(** The loop of [process_data], run to its end. *)
Lemma exec_process_data items : forall m,
  exec (DataProcessor.process_data items) m =
    mkMachine
      (mkDataProcessor (dynamic_class (this m)) (name (this m))
         (data (this m) ++ map (fun item => Int.mul item 2) items))
      (history m ++ map PushBack (map (fun item => Int.mul item 2) items)).
Proof.
  induction items as [|item items IH]; intros m.
  - destruct m as [[c n d] h]. cbn. now rewrite !app_nil_r.
  - rewrite exec_process_data_cons, IH, exec_process_item. cbn.
    now rewrite <- !app_assoc.
Qed.

Lemma exec_advanced_process_data items m :
  exec (AdvancedProcessor.process_data items) m =
    exec (DataProcessor.process_data items)
      (exec (cout_line AdvancedProcessor.notification) m).
Proof. unfold AdvancedProcessor.process_data. apply exec_seq. Qed.

Lemma map_mul_2_exact items :
  Forall (fun item => -1073741824 <= item < 1073741824) items ->
  map (fun item => Int.mul item 2) items = map (Z.mul 2) items.
Proof.
  induction 1 as [|item items Hitem _ IH]; cbn.
  - reflexivity.
  - now rewrite mul_2_exact, IH.
Qed.

(** A virtual call on an object constructed as [AdvancedProcessor] runs the
    override; on one from [create_default], the base method. *)
Lemma virtual_call_advanced items h :
  virtual_process_data items (mkMachine AdvancedProcessor.constructor h)
    = AdvancedProcessor.process_data items
        (mkMachine AdvancedProcessor.constructor h).
Proof. reflexivity. Qed.

Lemma virtual_call_default items h :
  virtual_process_data items (mkMachine DataProcessor.create_default h)
    = DataProcessor.process_data items
        (mkMachine DataProcessor.create_default h).
Proof. reflexivity. Qed.

End Pipeline.

(** C2, as the code has it.  For every batch, [process_data] of the base
    class appends one result per item, in input order, the result being
    [item * 2] in [int]; a result is twice its item for every item whose
    double is an [int], whatever the other items are, so a batch of such
    items leaves twice each item. *)
Theorem batch_results_are_doubles (m : Machine) (items : list int) :
  let before := DataProcessor.get_data (this m) in
  let after :=
    DataProcessor.get_data (this (exec (DataProcessor.process_data items) m)) in
  after = before ++ map (fun item => Int.mul item 2) items
  /\ List.length after = (List.length before + List.length items)%nat
  /\ (forall (i : nat) (item : int),
        nth_error items i = Some item ->
        -1073741824 <= item < 1073741824 ->
        nth_error after (List.length before + i) = Some (2 * item))
  /\ (Forall (fun item => -1073741824 <= item < 1073741824) items ->
      after = before ++ map (Z.mul 2) items).
Proof.
  intros before after.
  assert (Hafter : after = before ++ map (fun item => Int.mul item 2) items).
  { unfold after, before, DataProcessor.get_data.
    rewrite exec_process_data. reflexivity. }
  split; [exact Hafter|]. split; [|split].
  - now rewrite Hafter, length_app, length_map.
  - intros i item Hi Hitem. rewrite Hafter.
    rewrite nth_error_app2 by lia.
    replace (List.length before + i - List.length before)%nat with i by lia.
    rewrite nth_error_map, Hi. cbn [option_map].
    now rewrite mul_2_exact.
  - intros Hitems. rewrite Hafter. now rewrite map_mul_2_exact.
Qed.

Lemma batch_results_are_doubles_witness :
  (DataProcessor.get_data
     (this (exec (DataProcessor.process_data [1; 1073741824; 3])
              (start DataProcessor.create_default)))
   = [2; -2147483648; 6]
   /\ List.length
        (DataProcessor.get_data
           (this (exec (DataProcessor.process_data [1; 1073741824; 3])
                    (start DataProcessor.create_default))))
      = 3%nat
   /\ nth_error
        (DataProcessor.get_data
           (this (exec (DataProcessor.process_data [1; 1073741824; 3])
                    (start DataProcessor.create_default))))
        2
      = Some 6)
  /\ DataProcessor.get_data
       (this (exec (DataProcessor.process_data [1; 2; 3; 4; 5])
                (start DataProcessor.create_default)))
     = [2; 4; 6; 8; 10].
Proof.
  split.
  - destruct (batch_results_are_doubles
                (start DataProcessor.create_default) [1; 1073741824; 3])
      as [Hall [Hlen [Hitem _]]].
    split; [exact Hall|]. split; [exact Hlen|].
    apply (Hitem 2%nat 3); [reflexivity|lia].
  - destruct (batch_results_are_doubles
                (start DataProcessor.create_default) [1; 2; 3; 4; 5])
      as [_ [_ [_ Hbatch]]].
    apply Hbatch. repeat constructor; lia.
Defined.

(** C2, as stated, fails: the result stored for the item 2^30 is -2^31, not
    2^31. *)
Lemma batch_result_out_of_int_range :
  DataProcessor.get_data
    (this (exec (DataProcessor.process_data [1073741824])
             (start DataProcessor.create_default)))
    = [-2147483648]
  /\ DataProcessor.get_data
       (this (exec (DataProcessor.process_data [1073741824])
                (start DataProcessor.create_default)))
       <> map (Z.mul 2) [1073741824].
Proof.
  split; [vm_compute; reflexivity|]. vm_compute. discriminate.
Qed.

(** C6.  The override does to the object exactly what the base
    [process_data] does on the same batch, and adds one effect, the
    notification line, ahead of every [push_back]. *)
Theorem advanced_notifies_then_delegates (m : Machine) (items : list int) :
  let results := map (fun item => Int.mul item 2) items in
  this (exec (AdvancedProcessor.process_data items) m)
    = this (exec (DataProcessor.process_data items) m)
  /\ history (exec (DataProcessor.process_data items) m)
       = history m ++ map PushBack results
  /\ history (exec (AdvancedProcessor.process_data items) m)
       = history m
         ++ Print (AdvancedProcessor.notification ++ endl)
         :: map PushBack results.
Proof.
  intros results. unfold results.
  rewrite exec_advanced_process_data, !exec_process_data. cbn.
  repeat split. now rewrite <- app_assoc.
Qed.

(** C7.  [process_item] and both [process_data] keep the label and only
    append to the results; on an empty batch the results are as before. *)
Theorem processing_only_appends (m : Machine) (item : int) (items : list int) :
  let results := map (fun item => Int.mul item 2) items in
  (name (this (exec (DataProcessor.process_item item) m)) = name (this m)
   /\ data (this (exec (DataProcessor.process_item item) m))
        = data (this m) ++ [Int.mul item 2])
  /\ (name (this (exec (DataProcessor.process_data items) m)) = name (this m)
      /\ data (this (exec (DataProcessor.process_data items) m))
           = data (this m) ++ results)
  /\ (name (this (exec (AdvancedProcessor.process_data items) m))
        = name (this m)
      /\ data (this (exec (AdvancedProcessor.process_data items) m))
           = data (this m) ++ results)
  /\ exec (DataProcessor.process_data []) m = m
  /\ this (exec (AdvancedProcessor.process_data []) m) = this m.
Proof.
  intros results. unfold results.
  rewrite !exec_advanced_process_data, !exec_process_data.
  destruct m as [[c n d] h]. cbn. rewrite !app_nil_r.
  repeat split.
Qed.

(** C9.  [create_default] gives a [DataProcessor] labelled "default" with no
    results; the [AdvancedProcessor] constructor gives an
    [AdvancedProcessor] labelled "advanced" with no results. *)
Theorem construction_postconditions :
  (name DataProcessor.create_default = "default"%string
   /\ DataProcessor.get_data DataProcessor.create_default = []
   /\ dynamic_class DataProcessor.create_default = DataProcessor_class)
  /\ (name AdvancedProcessor.constructor = "advanced"%string
      /\ DataProcessor.get_data AdvancedProcessor.constructor = []
      /\ dynamic_class AdvancedProcessor.constructor = AdvancedProcessor_class).
Proof. repeat split. Qed.

(** C10.  Two batches in turn leave the machine, results included, as the
    one batch of their concatenation does. *)
Theorem process_data_app (m : Machine) (a b : list int) :
  exec (DataProcessor.process_data b) (exec (DataProcessor.process_data a) m)
    = exec (DataProcessor.process_data (a ++ b)) m.
Proof.
  revert m. induction a as [|item a IH]; intros m.
  - reflexivity.
  - cbn [app]. rewrite !exec_process_data_cons. apply IH.
Qed.

(** ** The two [main] functions *)

(** [vec.push(42); cout << vec.size()] prints 1. *)
Example main_test_cpp :
  Vector.size (Vector.push Vector.empty 42) = 1.
Proof. vm_compute. reflexivity. Qed.

(** [processor->process_data({1, 2, 3, 4, 5})] on the default processor,
    then [get_data()]. *)
Example main_sample :
  exec (virtual_process_data [1; 2; 3; 4; 5])
    (start DataProcessor.create_default)
  = mkMachine
      (mkDataProcessor DataProcessor_class "default" [2; 4; 6; 8; 10])
      [PushBack 2; PushBack 4; PushBack 6; PushBack 8; PushBack 10].
Proof. vm_compute. reflexivity. Qed.

Example advanced_sample :
  exec (virtual_process_data [1; 2; 3])
    (start AdvancedProcessor.constructor)
  = mkMachine
      (mkDataProcessor AdvancedProcessor_class "advanced" [2; 4; 6])
      [Print (AdvancedProcessor.notification ++ endl);
       PushBack 2; PushBack 4; PushBack 6].
Proof. vm_compute. reflexivity. Qed.

(** * Further properties *)

(** ** [fibonacci] *)

Section FibonacciFacts.

Lemma fibonacci_body (n : int) :
  fibonacci n =
    if n <=? 1 then n
    else Int.add (fibonacci (Int.sub n 1)) (fibonacci (Int.sub n 2)).
Proof.
  rewrite fibonacci_equation_1.
  destruct (Z_le_gt_dec n 1) as [Hle|Hgt]; cbn.
  - now rewrite (proj2 (Z.leb_le n 1) Hle).
  - now rewrite (proj2 (Z.leb_gt n 1)) by lia.
Qed.

Lemma fibonacci_base (n : int) : n <= 1 -> fibonacci n = n.
Proof.
  intros Hn. rewrite fibonacci_body.
  now rewrite (proj2 (Z.leb_le n 1) Hn).
Qed.

Lemma fibonacci_step (n : int) :
  2 <= n <= Int.INT_MAX ->
  fibonacci n = Int.add (fibonacci (n - 1)) (fibonacci (n - 2)).
Proof.
  unfold Int.INT_MAX. intros Hn. rewrite fibonacci_body.
  rewrite (proj2 (Z.leb_gt n 1)) by lia.
  unfold Int.sub. rewrite !to_int_id; [reflexivity| |];
    unfold Int.in_range, Int.INT_MIN, Int.INT_MAX; lia.
Qed.

Lemma fibonacci_in_range (n : int) :
  Int.in_range n -> Int.in_range (fibonacci n).
Proof.
  intros Hn. rewrite fibonacci_body.
  destruct (n <=? 1); [exact Hn|apply to_int_in_range].
Qed.

Lemma Fibonacci_pair_rec (k : nat) : forall a b,
  Fibonacci_pair (S (S k)) a b = Fibonacci_pair (S k) a b + Fibonacci_pair k a b.
Proof.
  induction k as [|k IH]; intros a b.
  - cbn. lia.
  - change (Fibonacci_pair (S (S (S k))) a b)
      with (Fibonacci_pair (S (S k)) b (a + b)).
    rewrite IH. cbn. lia.
Qed.

Lemma Fibonacci_number_rec (k : nat) :
  Fibonacci_number (S (S k)) = Fibonacci_number (S k) + Fibonacci_number k.
Proof. apply Fibonacci_pair_rec. Qed.

Lemma Fibonacci_number_nonneg (k : nat) :
  0 <= Fibonacci_number k /\ 0 <= Fibonacci_number (S k).
Proof.
  induction k as [|k [IH0 IH1]].
  - cbn. lia.
  - split; [exact IH1|]. rewrite Fibonacci_number_rec. lia.
Qed.

Lemma Fibonacci_number_succ (k : nat) :
  Fibonacci_number k <= Fibonacci_number (S k).
Proof.
  destruct k as [|k]; [cbn; lia|].
  rewrite Fibonacci_number_rec.
  pose proof (Fibonacci_number_nonneg k). lia.
Qed.

Lemma Fibonacci_number_le (j k : nat) :
  (j <= k)%nat -> Fibonacci_number j <= Fibonacci_number k.
Proof.
  induction 1 as [|k _ IH]; [lia|].
  pose proof (Fibonacci_number_succ k). lia.
Qed.

Lemma Fibonacci_number_46 : Fibonacci_number 46 = 1836311903.
Proof. vm_compute. reflexivity. Qed.

Lemma Fibonacci_number_47 : Fibonacci_number 47 = 2971215073.
Proof. vm_compute. reflexivity. Qed.

Lemma Fibonacci_number_fits (k : nat) :
  (k <= 46)%nat -> Int.in_range (Fibonacci_number k).
Proof.
  intros Hk. pose proof (Fibonacci_number_le k 46 Hk) as Hle.
  rewrite Fibonacci_number_46 in Hle.
  pose proof (Fibonacci_number_nonneg k).
  unfold Int.in_range, Int.INT_MIN, Int.INT_MAX. lia.
Qed.

(** Up to index 46 no addition leaves the [int] range. *)
Lemma fibonacci_of_nat (k : nat) :
  ((k <= 46)%nat -> fibonacci (Z.of_nat k) = Fibonacci_number k)
  /\ ((S k <= 46)%nat -> fibonacci (Z.of_nat (S k)) = Fibonacci_number (S k)).
Proof.
  induction k as [|k [IH0 IH1]].
  - split; intros _; now rewrite fibonacci_base by lia.
  - split; [exact IH1|]. intros Hk.
    rewrite fibonacci_step by (unfold Int.INT_MAX; lia).
    replace (Z.of_nat (S (S k)) - 1) with (Z.of_nat (S k)) by lia.
    replace (Z.of_nat (S (S k)) - 2) with (Z.of_nat k) by lia.
    rewrite IH0, IH1 by lia.
    unfold Int.add. rewrite <- Fibonacci_number_rec.
    apply to_int_id. now apply Fibonacci_number_fits.
Qed.

Lemma fibonacci_upto_46 (n : int) :
  0 <= n <= 46 -> fibonacci n = Fibonacci_number (Z.to_nat n).
Proof.
  intros Hn. rewrite <- (Z2Nat.id n) at 1 by lia.
  apply fibonacci_of_nat. lia.
Qed.

End FibonacciFacts.

(** X1.  For every [n] from 0 to 46, [fibonacci(n)] is the n-th Fibonacci
    number: the doubly recursive sum agrees with the linear iteration and
    never leaves the [int] range. *)
Theorem fibonacci_exact (n : int) :
  0 <= n <= 46 ->
  fibonacci n = Fibonacci_number (Z.to_nat n)
  /\ 0 <= fibonacci n <= 1836311903.
Proof.
  intros Hn. rewrite fibonacci_upto_46 by exact Hn. split; [reflexivity|].
  pose proof (Fibonacci_number_nonneg (Z.to_nat n)).
  pose proof (Fibonacci_number_le (Z.to_nat n) 46 ltac:(lia)) as Hle.
  rewrite Fibonacci_number_46 in Hle. lia.
Qed.

Lemma fibonacci_exact_witness :
  fibonacci 10 = Fibonacci_number (Z.to_nat 10)
  /\ 0 <= fibonacci 10 <= 1836311903.
Proof. apply (fibonacci_exact 10). lia. Defined.

(** X2.  46 is the last such index: for every [int] [n] from 47 on, the
    value returned is not the n-th Fibonacci number, which no [int] holds. *)
Theorem fibonacci_beyond_46 (n : int) :
  47 <= n <= Int.INT_MAX ->
  Int.INT_MAX < Fibonacci_number (Z.to_nat n)
  /\ fibonacci n <> Fibonacci_number (Z.to_nat n).
Proof.
  intros Hn.
  assert (Hbig : Int.INT_MAX < Fibonacci_number (Z.to_nat n)).
  { pose proof (Fibonacci_number_le 47 (Z.to_nat n) ltac:(lia)) as Hle.
    rewrite Fibonacci_number_47 in Hle. unfold Int.INT_MAX. lia. }
  split; [exact Hbig|].
  assert (Hr : Int.in_range (fibonacci n)).
  { apply fibonacci_in_range. unfold Int.in_range, Int.INT_MIN. lia. }
  unfold Int.in_range in Hr. lia.
Qed.

Lemma fibonacci_beyond_46_witness :
  Int.INT_MAX < Fibonacci_number (Z.to_nat 47)
  /\ fibonacci 47 <> Fibonacci_number (Z.to_nat 47).
Proof. apply (fibonacci_beyond_46 47). unfold Int.INT_MAX. lia. Defined.

(** X3.  [fibonacci] returns an argument of at most 1 as it is, negative
    ones included, and is nondecreasing over all [int]s up to 46. *)
Theorem fibonacci_nondecreasing (a b : int) :
  a <= b <= 46 ->
  fibonacci a <= fibonacci b /\ (a <= 1 -> fibonacci a = a).
Proof.
  intros [Hab Hb]. split; [|apply fibonacci_base].
  destruct (Z_le_gt_dec b 1) as [Hb1|Hb1].
  - rewrite !fibonacci_base by lia. exact Hab.
  - rewrite (fibonacci_upto_46 b) by lia.
    assert (H1 : 1 <= Fibonacci_number (Z.to_nat b)).
    { pose proof (Fibonacci_number_le 2 (Z.to_nat b) ltac:(lia)) as Hle.
      cbn in Hle. lia. }
    destruct (Z_le_gt_dec a 1) as [Ha1|Ha1].
    + rewrite fibonacci_base by lia. lia.
    + rewrite (fibonacci_upto_46 a) by lia.
      apply Fibonacci_number_le. lia.
Qed.

Lemma fibonacci_nondecreasing_witness :
  fibonacci (-4) <= fibonacci 7 /\ (-4 <= 1 -> fibonacci (-4) = -4).
Proof. apply (fibonacci_nondecreasing (-4) 7). lia. Defined.

(** ** [Vector<T>::push], in closed form *)

Section VectorClosedForm.

Context {T : Type} {ST : Scalable T}.

(** The element pushed as the [i]-th of [n] (counting from 0) has gone
    through the passes of the pushes number [max i 10 + 1] to [n]. *)
Lemma pushes_nth (items : list T) : forall (i : nat) (x : T),
  nth_error items i = Some x ->
  nth_error (Vector.data (Vector.pushes Vector.empty items)) i
    = Some (Nat.iter (List.length items - Nat.max i 10) Vector.scale x).
Proof.
  induction items as [|y items IH] using rev_ind; intros i x Hi.
  - destruct i; discriminate.
  - rewrite pushes_app. cbn [Vector.pushes fold_left].
    fold (Vector.pushes Vector.empty items).
    assert (Hlen : List.length (Vector.data (Vector.pushes Vector.empty items))
                   = List.length items)
      by (rewrite pushes_length; reflexivity).
    rewrite push_data, Hlen, length_app. cbn [List.length].
    destruct (Nat.lt_ge_cases i (List.length items)) as [Hlt|Hge].
    + rewrite nth_error_app1 in Hi by exact Hlt.
      specialize (IH i x Hi).
      destruct (Nat.leb_spec 10 (List.length items)) as [H10|H10].
      * rewrite nth_error_map, nth_error_app1, IH by (rewrite Hlen; exact Hlt).
        cbn [option_map].
        replace (List.length items + 1 - Nat.max i 10)%nat
          with (S (List.length items - Nat.max i 10)) by lia.
        reflexivity.
      * rewrite nth_error_app1, IH by (rewrite Hlen; exact Hlt).
        replace (List.length items + 1 - Nat.max i 10)%nat
          with (List.length items - Nat.max i 10)%nat by lia.
        reflexivity.
    + assert (Hin : (i < List.length (items ++ [y]))%nat)
        by (apply nth_error_Some; congruence).
      rewrite length_app in Hin. cbn in Hin.
      assert (i = List.length items) by lia. subst i.
      rewrite nth_error_app2, Nat.sub_diag in Hi by lia.
      injection Hi as ->.
      destruct (Nat.leb_spec 10 (List.length items)) as [H10|H10].
      * rewrite nth_error_map, nth_error_app2, Hlen, Nat.sub_diag by lia.
        cbn [nth_error option_map].
        replace (List.length items + 1 - Nat.max (List.length items) 10)%nat
          with 1%nat by lia.
        reflexivity.
      * rewrite nth_error_app2, Hlen, Nat.sub_diag by lia.
        replace (List.length items + 1 - Nat.max (List.length items) 10)%nat
          with 0%nat by lia.
        reflexivity.
Qed.

End VectorClosedForm.


(** X4.  For every element type: after [n] pushes onto a container created
    empty, the element pushed as number [i] (from 0) has been through the
    loop body exactly [n - max(i, 10)] times, none at all while [n] is at
    most 10. *)
Theorem pushes_pass_count {T : Type} {ST : Scalable T}
    (items : list T) (i : nat) (x : T) :
  nth_error items i = Some x ->
  List.length (Vector.data (Vector.pushes Vector.empty items))
    = List.length items
  /\ nth_error (Vector.data (Vector.pushes Vector.empty items)) i
       = Some (Nat.iter (List.length items - Nat.max i 10) Vector.scale x).
Proof.
  intros Hi. split.
  - rewrite pushes_length. reflexivity.
  - now apply pushes_nth.
Qed.

Lemma pushes_pass_count_witness :
  List.length
    (Vector.data (Vector.pushes Vector.empty (repeat 1 10 ++ [5; -2; 3])))
    = List.length (repeat 1 10 ++ [5; -2; 3])
  /\ nth_error
    (Vector.data (Vector.pushes Vector.empty (repeat 1 10 ++ [5; -2; 3]))) 10
    = Some (Nat.iter (List.length (repeat 1 10 ++ [5; -2; 3]) - Nat.max 10 10)
              Vector.scale 5).
Proof.
  apply (pushes_pass_count (T:=int) (repeat 1 10 ++ [5; -2; 3]) 10 5).
  reflexivity.
Defined.



(** ** Virtual calls and runs of several batches *)

Section VirtualCalls.

Implicit Types (m : Machine) (items : list int)
  (batches : list (list int)).

Lemma printed_app (h1 h2 : list effect) :
  printed (h1 ++ h2) = printed h1 ++ printed h2.
Proof. unfold printed. now rewrite flat_map_app. Qed.

Lemma printed_PushBack (values : list int) : printed (map PushBack values) = [].
Proof. induction values as [|x values IH]; [reflexivity|exact IH]. Qed.

(** The object after a virtual call: the class does not matter. *)
Lemma this_exec_virtual items m :
  this (exec (virtual_process_data items) m) =
    mkDataProcessor (dynamic_class (this m)) (name (this m))
      (data (this m) ++ map (fun item => Int.mul item 2) items).
Proof.
  unfold exec, virtual_process_data.
  destruct (dynamic_class (this m)) eqn:Hclass.
  - fold (exec (DataProcessor.process_data items) m).
    rewrite exec_process_data. cbn. now rewrite Hclass.
  - fold (exec (AdvancedProcessor.process_data items) m).
    rewrite exec_advanced_process_data, exec_process_data. cbn.
    now rewrite Hclass.
Qed.

(** What a virtual call prints: the line for an [AdvancedProcessor],
    nothing for a [DataProcessor]. *)
Lemma printed_exec_virtual items m :
  printed (history (exec (virtual_process_data items) m)) =
    printed (history m) ++
    match dynamic_class (this m) with
    | DataProcessor_class => []
    | AdvancedProcessor_class => [(AdvancedProcessor.notification ++ endl)%string]
    end.
Proof.
  unfold exec, virtual_process_data.
  destruct (dynamic_class (this m)).
  - fold (exec (DataProcessor.process_data items) m).
    rewrite exec_process_data. cbn [history].
    now rewrite printed_app, printed_PushBack.
  - fold (exec (AdvancedProcessor.process_data items) m).
    rewrite exec_advanced_process_data, exec_process_data. cbn [history exec cout_line snd].
    now rewrite !printed_app, printed_PushBack, app_nil_r.
Qed.

Lemma exec_process_batches_cons items batches m :
  exec (process_batches (items :: batches)) m =
    exec (process_batches batches) (exec (virtual_process_data items) m).
Proof. unfold process_batches. cbn [for_each]. apply exec_seq. Qed.

Lemma this_exec_process_batches batches : forall m,
  this (exec (process_batches batches) m) =
    mkDataProcessor (dynamic_class (this m)) (name (this m))
      (data (this m) ++ map (fun item => Int.mul item 2) (List.concat batches)).
Proof.
  induction batches as [|items batches IH]; intros m.
  - destruct m as [[c n d] h]. cbn. now rewrite app_nil_r.
  - rewrite exec_process_batches_cons, IH, this_exec_virtual. cbn.
    now rewrite map_app, app_assoc.
Qed.

Lemma printed_exec_process_batches batches : forall m,
  printed (history (exec (process_batches batches) m)) =
    printed (history m) ++
    match dynamic_class (this m) with
    | DataProcessor_class => []
    | AdvancedProcessor_class =>
        repeat (AdvancedProcessor.notification ++ endl)%string (List.length batches)
    end.
Proof.
  induction batches as [|items batches IH]; intros m.
  - cbn. destruct (dynamic_class (this m)); now rewrite app_nil_r.
  - rewrite exec_process_batches_cons, IH, printed_exec_virtual,
      this_exec_virtual.
    cbn [dynamic_class List.length repeat].
    destruct (dynamic_class (this m)).
    + now rewrite !app_nil_r.
    + now rewrite <- app_assoc.
Qed.

End VirtualCalls.

(** X6.  A call through the virtual [process_data] leaves the object the
    base method would leave, whichever class the object has, and keeps that
    class; it prints the notification line when the object is an
    [AdvancedProcessor] and nothing when it is a [DataProcessor]. *)
Theorem virtual_call_substitutable (m : Machine) (items : list int) :
  this (exec (virtual_process_data items) m)
    = this (exec (DataProcessor.process_data items) m)
  /\ dynamic_class (this (exec (virtual_process_data items) m))
       = dynamic_class (this m)
  /\ printed (history (exec (virtual_process_data items) m))
       = printed (history m) ++
         match dynamic_class (this m) with
         | DataProcessor_class => []
         | AdvancedProcessor_class => [(AdvancedProcessor.notification ++ endl)%string]
         end.
Proof.
  rewrite this_exec_virtual, exec_process_data, printed_exec_virtual.
  repeat split.
Qed.

(** X7.  Virtual calls on a list of batches, one after the other, leave the
    results of one base call on the concatenation of the batches; an
    [AdvancedProcessor] prints one notification line per call, empty batches
    included, and a [DataProcessor] prints nothing. *)
Theorem process_batches_concat (m : Machine) (batches : list (list int)) :
  this (exec (process_batches batches) m)
    = this (exec (DataProcessor.process_data (List.concat batches)) m)
  /\ printed (history (exec (process_batches batches) m))
       = printed (history m) ++
         match dynamic_class (this m) with
         | DataProcessor_class => []
         | AdvancedProcessor_class =>
             repeat (AdvancedProcessor.notification ++ endl)%string
               (List.length batches)
         end.
Proof.
  rewrite this_exec_process_batches, exec_process_data,
    printed_exec_process_batches.
  split; reflexivity.
Qed.

(** X8.  Halving the results a base [process_data] has appended gives the
    batch back, for items whose double is an [int]: on such batches the
    results determine the input. *)
Theorem results_halve_to_batch (m : Machine) (items : list int) :
  Forall (fun item => -1073741824 <= item < 1073741824) items ->
  map (fun result => result / 2)
    (skipn (List.length (DataProcessor.get_data (this m)))
       (DataProcessor.get_data
          (this (exec (DataProcessor.process_data items) m))))
  = items.
Proof.
  intros Hitems. unfold DataProcessor.get_data.
  rewrite exec_process_data. cbn [this data].
  rewrite skipn_app, Nat.sub_diag, skipn_all. cbn [skipn app].
  rewrite map_mul_2_exact by exact Hitems.
  rewrite map_map.
  induction items as [|item items IH]; [reflexivity|].
  cbn [map]. inversion Hitems; subst.
  rewrite IH by assumption.
  now rewrite Z.mul_comm, Z.div_mul by lia.
Qed.

Lemma results_halve_to_batch_witness :
  map (fun result => result / 2)
    (skipn
       (List.length
          (DataProcessor.get_data (this (start DataProcessor.create_default))))
       (DataProcessor.get_data
          (this (exec (DataProcessor.process_data [7; -3; 0])
                   (start DataProcessor.create_default)))))
  = [7; -3; 0].
Proof.
  apply (results_halve_to_batch (start DataProcessor.create_default) [7; -3; 0]).
  repeat constructor; lia.
Defined.
